(** * Iris classification service: trainer script and prediction API

  A shallow embedding of the two Python programs of the repository:

  - [create_model.py], the one-shot trainer, embedded as
    [Trainer.create_model];
  - [app/main.py], the FastAPI prediction service, embedded as the module
    [Main] (module-level start-up code, the request schema [IrisInput],
    the handlers [read_root] and [predict], and the route table).

  Python floats are IEEE binary64 numbers, so they are Rocq's primitive
  floats.  Exceptions, the file system, standard output and the objects
  held in module globals are threaded explicitly through a state-and-error
  monad.  The third-party libraries the programs call (scikit-learn,
  joblib, pydantic, the pseudo-random generator) are the fields of the
  class [Libraries]; what is assumed of them is stated as named contracts
  and appears as a hypothesis of every theorem that needs it. *)

From Stdlib Require Import Floats ZArith Ascii.
From stdpp Require Import gmap strings list fin_maps.

Set Warnings "-inexact-float,-register-all".
Local Open Scope Z_scope.

(** ** Python values and effects *)

Module Python.

(** The exceptions that the modelled code paths can raise. *)
Inductive exn : Type :=
| FileNotFoundError (path : string)
| IsADirectoryError (path : string)
| NotADirectoryError (path : string)
| UnpicklingError
| IndexError
| ValueError
| OverflowError.

(** Outcome of running a piece of Python code: a value or an exception. *)
Inductive res (A : Type) : Type :=
| Ret (a : A)
| Raise (e : exn).
Arguments Ret {A} a.
Arguments Raise {A} e.

(** Pure code that may raise: the first exception ends the computation. *)
Definition res_bind {A B} (k : A -> res B) (r : res A) : res B :=
  match r with
  | Ret a => k a
  | Raise e => Raise e
  end.

#[export] Instance res_mret : MRet res := @Ret.
#[export] Instance res_mbind : MBind res := @res_bind.

(** Code running over a mutable state [S]; a raised exception keeps the
    state changes made before it. *)
Definition Py (S A : Type) : Type := S -> res A * S.

Definition ret {S A} (a : A) : Py S A := fun s => (Ret a, s).

Definition bind {S A B} (k : A -> Py S B) (c : Py S A) : Py S B :=
  fun s =>
    match c s with
    | (Ret a, s') => k a s'
    | (Raise e, s') => (Raise e, s')
    end.

(** Sequencing is written with stdpp's monad notations: [x ← c; k] runs
    [c], binds its value to [x] and goes on with [k]; [c;; k] drops the
    value. *)
#[export] Instance Py_ret {S} : MRet (Py S) := @ret S.
#[export] Instance Py_bind {S} : MBind (Py S) := @bind S.

Definition lift {S A} (r : res A) : Py S A := fun s => (r, s).

Definition get {S} : Py S S := fun s => (Ret s, s).

Definition modify {S} (f : S -> S) : Py S unit := fun s => (Ret tt, f s).

(** JSON documents as [json.loads] produces them: numbers without a
    fraction or exponent become [int], the others [float]. *)
Inductive json : Type :=
| JNull
| JBool (b : bool)
| JInt (z : Z)
| JFloat (f : float)
| JStr (s : string)
| JArr (items : list json)
| JObj (members : list (string * json)).

(** A [dict] literal returned by a handler, in insertion order. *)
Definition pydict : Type := list (string * json).

(** The [dict] that [json.loads] builds from the members of a JSON object:
    when a key is repeated the last occurrence wins. *)
Definition dict_of_members (members : list (string * json)) : gmap string json :=
  list_to_map (reverse members).

(** A two-dimensional array of floats, as a list of rows. *)
Definition matrix : Type := list (list float).

(** A NumPy scalar, element of the array a model's [predict] returns. *)
Inductive npscalar : Type :=
| np_int64 (z : Z)
| np_float64 (f : float).

(** [a[i]] on a one-dimensional array, for a non-negative index. *)
Definition getitem {A} (a : list A) (i : nat) : res A :=
  match a !! i with
  | Some x => Ret x
  | None => Raise IndexError
  end.

(** The integer [z] as a float, for [0 <= z < 2^63]. *)
Definition float_of_Z (z : Z) : float := PrimFloat.of_uint63 (Uint63.of_Z z).

(** [math.floor] of a finite float; [None] on infinities and NaN. *)
Definition float_floor (f : float) : option Z :=
  match Prim2SF f with
  | S754_zero _ => Some 0
  | S754_finite s m e =>
      let n := if s then Z.neg m else Z.pos m in
      Some (if 0 <=? e then n * 2 ^ e else n / 2 ^ (- e))
  | S754_infinity _ | S754_nan => None
  end.

(** [math.ceil] of a finite float. *)
Definition float_ceil (f : float) : option Z :=
  Z.opp <$> float_floor (- f)%float.

(** Truncation toward zero of a finite float. *)
Definition float_trunc (f : float) : res Z :=
  match Prim2SF f with
  | S754_zero _ => Ret 0
  | S754_finite s m e =>
      let a := if 0 <=? e then Z.pos m * 2 ^ e else Z.pos m / 2 ^ (- e) in
      Ret (if s then - a else a)
  | S754_infinity _ => Raise OverflowError
  | S754_nan => Raise ValueError
  end.

(** Whether the magnitude of a finite float is below the integer
    [bound]; [false] on infinities and NaN. *)
Definition float_abs_ltb (f : float) (bound : Z) : bool :=
  match Prim2SF f with
  | S754_zero _ => 0 <? bound
  | S754_finite _ m e =>
      if 0 <=? e then Z.pos m * 2 ^ e <? bound else Z.pos m <? bound * 2 ^ (- e)
  | S754_infinity _ | S754_nan => false
  end.

(** The least magnitude that the conversion to a 32-bit float rounds to
    infinity: half a unit in the last place above the largest 32-bit float,
    [2^128 - 2^103]. *)
Definition float32_overflow_threshold : Z := 2 ^ 128 - 2 ^ 103.

(** The float is finite and its conversion to a 32-bit float is finite. *)
Definition fits_float32 (f : float) : bool :=
  float_abs_ltb f float32_overflow_threshold.

(** The conversion of the float to a 32-bit float is an infinity: the
    float is an infinity, or finite and at least the threshold in
    magnitude.  A NaN neither fits nor overflows. *)
Definition overflows_float32 (f : float) : bool :=
  match Prim2SF f with
  | S754_infinity _ => true
  | S754_nan => false
  | S754_zero _ | S754_finite _ _ _ => negb (fits_float32 f)
  end.

(** The builtin [int(x)] applied to a NumPy scalar. *)
Definition py_int (x : npscalar) : res Z :=
  match x with
  | np_int64 z => Ret z
  | np_float64 f => float_trunc f
  end.

End Python.

Export Python.

(** ** The operating-system state the two programs act on *)

Module OS.

(** One call into a third-party library or builtin, as recorded in the
    ghost log [calls] of the world, in the order the calls are made. *)
Inductive lib_call : Type :=
| CallLoadIris
| CallTrainTestSplit (X : matrix) (y : list Z) (test_size : float) (random_state : Z)
| CallRandomForestClassifier (kwargs : pydict)
| CallFit (kwargs : pydict) (X : matrix) (y : list Z)
| CallJoblibDump (path : string)
| CallJoblibLoad (path : string)
| CallPrint (line : string).

(** Paths are relative to the working directory.  [dirs] are the
    directories that exist (the empty path is the working directory itself),
    [files] the regular files with their contents, [stdout] the lines
    printed so far, [entropy] the seed the operating system gave to the
    process-wide random generator. *)
Record world : Type := {
  dirs : gset string;
  files : gmap string (list Byte.byte);
  stdout : list string;
  entropy : Z;
  calls : list lib_call
}.

(** The world with more calls recorded in its log. *)
Definition add_calls (cs : list lib_call) (w : world) : world :=
  {| dirs := dirs w; files := files w; stdout := stdout w;
     entropy := entropy w; calls := calls w ++ cs |}.

Definition log_call (c : lib_call) : Py world unit := modify (add_calls [c]).

(** Whether a [/] occurs in the string. *)
Fixpoint has_slash (p : string) : bool :=
  match p with
  | EmptyString => false
  | String c rest => if Ascii.eqb c "/"%char then true else has_slash rest
  end.

(** [os.path.dirname] of a relative path: what precedes the last [/]. *)
Fixpoint dirname (p : string) : string :=
  match p with
  | EmptyString => EmptyString
  | String c rest => if has_slash rest then String c (dirname rest) else EmptyString
  end.

(** The prefixes of [rest], each preceded by [before], that end just
    before a [/]. *)
Fixpoint prefixes_before_slash (before rest : string) : list string :=
  match rest with
  | EmptyString => []
  | String c rest' =>
      let longer := prefixes_before_slash (String.append before (String c EmptyString)) rest' in
      if Ascii.eqb c "/"%char then before :: longer else longer
  end.

(** The paths that must be directories for [p] to be reachable: for
    [a/b/c] they are [a] and [a/b]. *)
Definition ancestors (p : string) : list string :=
  prefixes_before_slash EmptyString p.

(** The exception of [open] on a path that cannot be reached or, for
    reading, does not exist: [NotADirectoryError] when a regular file
    stands where the path needs a directory, [FileNotFoundError]
    otherwise. *)
Definition missing_path_error (path : string) (w : world) : exn :=
  if decide (Exists (λ a, is_Some (files w !! a)) (ancestors path))
  then NotADirectoryError path
  else FileNotFoundError path.

(** [open(path, "wb")] followed by writing [data] and closing: the file is
    created or truncated, so earlier contents are lost. *)
Definition write_file (path : string) (data : list Byte.byte) : Py world unit :=
  fun w =>
    if decide (path ∈ dirs w) then (Raise (IsADirectoryError path), w)
    else if decide (dirname path ∈ dirs w) then
      (Ret tt,
       {| dirs := dirs w; files := <[path := data]> (files w); stdout := stdout w;
          entropy := entropy w; calls := calls w |})
    else (Raise (missing_path_error path w), w).

(** [open(path, "rb")] followed by reading the whole file. *)
Definition read_file (path : string) : Py world (list Byte.byte) :=
  fun w =>
    if decide (path ∈ dirs w) then (Raise (IsADirectoryError path), w)
    else match files w !! path with
         | Some data => (Ret data, w)
         | None => (Raise (missing_path_error path w), w)
         end.

(** The builtin [print(line)]. *)
Definition print (line : string) : Py world unit :=
  log_call (CallPrint line);;
  modify (fun w =>
    {| dirs := dirs w; files := files w; stdout := stdout w ++ [line];
       entropy := entropy w; calls := calls w |}).

End OS.

Export OS.

(** ** Third-party libraries *)

(** The object [load_iris()] returns: the samples and their labels. *)
Record Bunch : Type := {
  Bunch_data : matrix;
  Bunch_target : list Z
}.

(** What the programs use of their libraries.  [Model] is the type of
    fitted estimator objects.  Calling [predict] on an estimator is a
    method call on a mutable object, so it returns the object as well. *)
Class Libraries : Type := {
  Model : Type;
  (** [estimator.predict(X)] *)
  model_predict : Model -> matrix -> res (list npscalar) * Model;
  (** fitting a random forest built from the given constructor arguments
      on [(X, y)], drawing its randomness
      from the process-wide generator seeded with the third argument *)
  forest_fit : pydict -> Z -> matrix -> list Z -> res Model;
  (** joblib's serialisation of an estimator and its inverse *)
  pickle : Model -> list Byte.byte;
  unpickle : list Byte.byte -> res Model;
  (** [numpy.random.RandomState(seed).permutation(n)] *)
  permutation : Z -> nat -> list nat;
  (** the data set packaged with scikit-learn *)
  iris_bunch : Bunch;
  (** pydantic's validator for a field annotated [float] *)
  float_validator : json -> option float
}.

Module Joblib.
Section WithLibraries.
Context {L : Libraries}.

(** [joblib.dump(value, filename)] *)
Definition dump (value : Model) (filename : string) : Py world unit :=
  log_call (CallJoblibDump filename);;
  write_file filename (pickle value).

(** [joblib.load(filename)] *)
Definition load (filename : string) : Py world Model :=
  log_call (CallJoblibLoad filename);;
  blob ← read_file filename;
  lift (unpickle blob).

End WithLibraries.
End Joblib.

Module Sklearn.
Section WithLibraries.
Context {L : Libraries}.

(** [sklearn.datasets.load_iris()] *)
Definition load_iris : Py world Bunch :=
  log_call CallLoadIris;;
  mret iris_bunch.

(** [a[indices]]: the rows of [a] at the given positions. *)
Definition safe_indexing {A} (a : list A) (indices : list nat) : res (list A) :=
  match mapM (fun i => a !! i) indices with
  | Some rows => Ret rows
  | None => Raise IndexError
  end.

(** The sizes [(n_train, n_test)] that [train_test_split] derives from a
    fractional [test_size] when [train_size] is left out. *)
Definition validate_shuffle_split (n_samples : nat) (test_size : float) : res (nat * nat) :=
  if negb ((0 <? test_size)%float && (test_size <? 1)%float) then Raise ValueError
  else match float_ceil (test_size * float_of_Z (Z.of_nat n_samples))%float with
       | None => Raise ValueError
       | Some n_test =>
           let n_test := Z.to_nat n_test in
           let n_train := (n_samples - n_test)%nat in
           if (n_train =? 0)%nat then Raise ValueError else Ret (n_train, n_test)
       end.

(** The arrays [train_test_split(X, y, test_size=..., random_state=...)]
    returns: one shuffled split; the first [n_test] positions of the
    permutation drawn from the seed are held out, the next [n_train] are
    the training rows. *)
Definition shuffle_split (X : matrix) (y : list Z) (test_size : float) (random_state : Z)
  : res (matrix * matrix * list Z * list Z) :=
  let n_samples := length X in
  if negb (length y =? n_samples)%nat then Raise ValueError
  else
    '(n_train, n_test) ← validate_shuffle_split n_samples test_size;
    let perm := permutation random_state n_samples in
    let ind_test := take n_test perm in
    let ind_train := take n_train (drop n_test perm) in
    X_train ← safe_indexing X ind_train;
    X_test ← safe_indexing X ind_test;
    y_train ← safe_indexing y ind_train;
    y_test ← safe_indexing y ind_test;
    mret (X_train, X_test, y_train, y_test).

(** The call [train_test_split(X, y, test_size=..., random_state=...)]. *)
Definition train_test_split (X : matrix) (y : list Z) (test_size : float) (random_state : Z)
  : Py world (matrix * matrix * list Z * list Z) :=
  log_call (CallTrainTestSplit X y test_size random_state);;
  lift (shuffle_split X y test_size random_state).

(** The constructor [RandomForestClassifier]: an estimator that is not
    fitted yet is its constructor arguments. *)
Definition RandomForestClassifier (kwargs : pydict) : Py world pydict :=
  log_call (CallRandomForestClassifier kwargs);;
  mret kwargs.

(** [estimator.fit(X, y)]: the estimator object becomes a fitted model. *)
Definition fit (estimator : pydict) (X : matrix) (y : list Z) : Py world Model :=
  log_call (CallFit estimator X y);;
  w ← get;
  lift (forest_fit estimator (entropy w) X y).

End WithLibraries.
End Sklearn.

(** ** create_model.py *)

Module Trainer.
Section WithLibraries.
Context {L : Libraries}.

(** The script, statement by statement. *)
Definition create_model : Py world unit :=
  data ← Sklearn.load_iris;
  let X := Bunch_data data in
  let y := Bunch_target data in
  '(X_train, X_test, y_train, y_test) ← Sklearn.train_test_split X y 0.2%float 42;
  model ← Sklearn.RandomForestClassifier [];
  model ← Sklearn.fit model X_train y_train;
  Joblib.dump model "app/model.pkl";;
  print "Model trained and saved at app/model.pkl".

End WithLibraries.
End Trainer.

(** ** app/main.py *)

Module Main.
Section WithLibraries.
Context {L : Libraries}.

(** The state of the service process: the module global [model], and a
    ghost log of the arguments of every [model.predict] call so far. *)
Record process : Type := {
  model : Model;
  inference_log : list matrix
}.

(** The module-level statements, run once when the module is imported. *)
Definition startup : Py world process :=
  loaded ← Joblib.load "app/model.pkl";
  mret {| model := loaded; inference_log := [] |}.

(** The input schema: four required fields annotated [float]. *)
Record IrisInput : Type := {
  sepal_length : float;
  sepal_width : float;
  petal_length : float;
  petal_width : float
}.

(** One entry of a validation error: where, and what was wrong. *)
Inductive error_type : Type :=
| missing
| not_a_float
| not_a_dict.

Record error_detail : Type := {
  loc : list string;
  type : error_type
}.

(** Validation of one required [float] field of the request body. *)
Definition validate_field (values : gmap string json) (name : string)
  : list error_detail + float :=
  match values !! name with
  | None => inl [{| loc := ["body"; name]; type := missing |}]
  | Some v =>
      match float_validator v with
      | Some f => inr f
      | None => inl [{| loc := ["body"; name]; type := not_a_float |}]
      end
  end.

Definition errors_of {A} (r : list error_detail + A) : list error_detail :=
  match r with
  | inl errors => errors
  | inr _ => []
  end.

(** Validation of a [dict] against [IrisInput]: each declared field is
    looked up and validated, in declaration order, the errors of all
    fields are collected, and keys that are not declared are not looked
    at. *)
Definition IrisInput_validate (values : gmap string json) : list error_detail + IrisInput :=
  let sl := validate_field values "sepal_length" in
  let sw := validate_field values "sepal_width" in
  let pl := validate_field values "petal_length" in
  let pw := validate_field values "petal_width" in
  match sl, sw, pl, pw with
  | inr a, inr b, inr c, inr d =>
      inr {| sepal_length := a; sepal_width := b; petal_length := c; petal_width := d |}
  | _, _, _, _ => inl (errors_of sl ++ errors_of sw ++ errors_of pl ++ errors_of pw)
  end.

(** What the framework does with the body of a request to an endpoint
    whose only parameter is [input_data: IrisInput].  A request carries
    the JSON document its body parses to, [None] when it has no body; a
    body that does not parse as JSON is not represented. *)
Definition validate_body (body : option json) : list error_detail + IrisInput :=
  match body with
  | None => inl [{| loc := ["body"]; type := missing |}]
  | Some (JObj members) => IrisInput_validate (dict_of_members members)
  | Some _ => inl [{| loc := ["body"]; type := not_a_dict |}]
  end.

(** The method call [model.predict(features)] on the module global. *)
Definition model_dot_predict (features : matrix) : Py process (list npscalar) :=
  fun p =>
    let '(r, m) := model_predict (model p) features in
    (r, {| model := m; inference_log := inference_log p ++ [features] |}).

(** Handler of [GET /]. *)
Definition read_root : Py process pydict :=
  mret [("message", JStr "Welcome to the ML Model API")].

(** Handler of [POST /predict/]. *)
Definition predict (input_data : IrisInput) : Py process pydict :=
  let features := [[
    sepal_length input_data;
    sepal_width input_data;
    petal_length input_data;
    petal_width input_data
  ]] in
  prediction ← model_dot_predict features;
  label ← lift (getitem prediction 0);
  n ← lift (py_int label);
  mret [("prediction", JInt n)].

Inductive http_method : Type :=
| GET | POST | PUT | DELETE | PATCH | HEAD | OPTIONS.

Record request : Type := {
  method : http_method;
  path : string;
  body : option json
}.

(** What the application answers.  [OK] is status 200 with the handler's
    [dict] as JSON body, [UnprocessableEntity] status 422 with the list of
    validation errors, [InternalServerError] status 500 after an exception
    in a handler; [NotRouted] stands for the framework's own answer to a
    request that matches no route declared in the module. *)
Inductive response : Type :=
| OK (content : pydict)
| UnprocessableEntity (detail : list error_detail)
| InternalServerError
| NotRouted.

(** Running a handler and turning its outcome into a response. *)
Definition run_endpoint (handler : Py process pydict) (p : process) : response * process :=
  match handler p with
  | (Ret content, p') => (OK content, p')
  | (Raise _, p') => (InternalServerError, p')
  end.

(** The application object [app] with its two routes. *)
Definition app (r : request) (p : process) : response * process :=
  match method r with
  | GET =>
      if String.eqb (path r) "/" then run_endpoint read_root p
      else (NotRouted, p)
  | POST =>
      if String.eqb (path r) "/predict/" then
        match validate_body (body r) with
        | inl errors => (UnprocessableEntity errors, p)
        | inr input_data => run_endpoint (predict input_data) p
        end
      else (NotRouted, p)
  | _ => (NotRouted, p)
  end.

(** Handling a sequence of requests, one after the other. *)
Fixpoint serve (requests : list request) (p : process) : list response * process :=
  match requests with
  | [] => ([], p)
  | r :: rest =>
      let '(resp, p') := app r p in
      let '(resps, p'') := serve rest p' in
      (resp :: resps, p'')
  end.

(** A run of the service: import the module, then handle the requests. *)
Definition service (requests : list request) : Py world (list response * process) :=
  p ← startup;
  mret (serve requests p).

End WithLibraries.
End Main.

Export Trainer Main.

(** ** What is assumed of the libraries *)

Section Contracts.
Context {L : Libraries}.

(** [predict] leaves the estimator it is called on as it was. *)
Definition predict_is_read_only : Prop :=
  ∀ (m : Model) (X : matrix), (model_predict m X).2 = m.

(** A model read back from its own serialisation is the model. *)
Definition pickle_round_trip : Prop :=
  ∀ m : Model, unpickle (pickle m) = Ret m.





End Contracts.

(** ** Vocabulary of the statements *)

Section Vocabulary.
Context {L : Libraries}.

(** The names of the fields [IrisInput] declares. *)
Definition field_names : list string :=
  ["sepal_length"; "sepal_width"; "petal_length"; "petal_width"].

(** The value a request body gives to a field, if any. *)
Definition field_value (body : option json) (name : string) : option json :=
  match body with
  | Some (JObj members) => dict_of_members members !! name
  | _ => None
  end.

(** The field is present in the body and coercible to the float [f]. *)
Definition field_is (body : option json) (name : string) (f : float) : Prop :=
  field_value body name ≫= float_validator = Some f.

(** The field is missing from the body or not coercible to a float. *)
Definition field_is_bad (body : option json) (name : string) : Prop :=
  field_value body name ≫= float_validator = None.

Definition predict_request (body : option json) : request :=
  {| method := POST; path := "/predict/"; body := body |}.

Definition welcome_request (body : option json) : request :=
  {| method := GET; path := "/"; body := body |}.




(** The six library calls of a complete run of the trainer, in order. *)
Definition trainer_calls (X_train : matrix) (y_train : list Z) : list lib_call :=
  [ CallLoadIris;
    CallTrainTestSplit (Bunch_data iris_bunch) (Bunch_target iris_bunch) 0.2 42;
    CallRandomForestClassifier [];
    CallFit [] X_train y_train;
    CallJoblibDump "app/model.pkl";
    CallPrint "Model trained and saved at app/model.pkl" ].

(** The feature matrix a request makes the service pass to the model, if
    the request reaches the model at all: only a POST to [/predict/] with
    a body that passes validation does. *)
Definition features_of (r : request) : option matrix :=
  match method r with
  | POST =>
      if String.eqb (path r) "/predict/" then
        match validate_body (body r) with
        | inr input_data =>
            Some [[sepal_length input_data; sepal_width input_data;
                   petal_length input_data; petal_width input_data]]
        | inl _ => None
        end
      else None
  | _ => None
  end.

(** The error entry a declared field earns in a [dict], if any. *)
Definition field_error (values : gmap string json) (name : string) : option error_detail :=
  match values !! name ≫= float_validator with
  | Some _ => None
  | None =>
      Some {| loc := ["body"; name];
              type := if values !! name is Some _ then not_a_float else missing |}
  end.

(** The calls a run of the trainer has made when it reaches the dump. *)
Definition calls_up_to_dump (X_train : matrix) (y_train : list Z) : list lib_call :=
  [ CallLoadIris;
    CallTrainTestSplit (Bunch_data iris_bunch) (Bunch_target iris_bunch) 0.2 42;
    CallRandomForestClassifier [];
    CallFit [] X_train y_train;
    CallJoblibDump "app/model.pkl" ].

End Vocabulary.

(** ** A small instance of the libraries

    A stand-in for the real libraries that meets every contract above; it
    shows that the contracts can be met together and lets the statements
    be evaluated on concrete requests. *)

Module Toy.

(** A fitted toy model: the number of features and the one label it
    always answers, each kept in a byte. *)
Definition toy_model : Type := Byte.byte * Byte.byte.

Definition byte_nat (b : Byte.byte) : nat := N.to_nat (Byte.to_N b).

(** Like a forest, the toy model checks its input first: it raises
    unless every value converts to a finite 32-bit float and every row
    has the width it was fitted on. *)
Definition toy_predict (m : toy_model) (X : matrix) : res (list npscalar) * toy_model :=
  (if forallb (forallb fits_float32) X
      && forallb (λ row, (length row =? byte_nat m.1)%nat) X
   then Ret (np_int64 <$> ((λ _, Z.of_N (Byte.to_N m.2)) <$> X))
   else Raise ValueError, m).

(** Fitting picks, with the seed, one of the labels of [y]. *)
Definition toy_fit (kwargs : pydict) (seed : Z) (X : matrix) (y : list Z) : res toy_model :=
  match X, y !! (Z.to_nat (seed `mod` Z.of_nat (length y))) with
  | row :: _, Some label =>
      match Byte.of_N (N.of_nat (length row)), Byte.of_N (Z.to_N label) with
      | Some w, Some l => if 0 <=? label then Ret (w, l) else Raise ValueError
      | _, _ => Raise ValueError
      end
  | _, _ => Raise ValueError
  end.

Definition toy_pickle (m : toy_model) : list Byte.byte := [m.1; m.2].

Definition toy_unpickle (blob : list Byte.byte) : res toy_model :=
  match blob with
  | [w; l] => Ret (w, l)
  | _ => Raise UnpicklingError
  end.

Definition toy_iris : Bunch :=
  {| Bunch_data :=
       replicate 50 [5.1; 3.5; 1.4; 0.2]%float ++
       replicate 50 [7.0; 3.2; 4.7; 1.4]%float ++
       replicate 50 [6.3; 3.3; 6.0; 2.5]%float;
     Bunch_target := replicate 50 0 ++ replicate 50 1 ++ replicate 50 2 |}.

Definition toy_float_validator (v : json) : option float :=
  match v with
  | JFloat f => Some f
  | _ => None
  end.

Definition libraries : Libraries :=
  {| Model := toy_model;
     model_predict := toy_predict;
     forest_fit := toy_fit;
     pickle := toy_pickle;
     unpickle := toy_unpickle;
     permutation := λ _ n, reverse (seq 0 n);
     iris_bunch := toy_iris;
     float_validator := toy_float_validator |}.

(** A working directory holding only the directory [app]. *)
Definition fresh_world : world :=
  {| dirs := {[ EmptyString; "app" ]}; files := ∅; stdout := []; entropy := 7; calls := [] |}.

Definition sample_members : list (string * json) :=
  [("sepal_length", JFloat 6.3); ("sepal_width", JFloat 3.3);
   ("petal_length", JFloat 6.0); ("petal_width", JFloat 2.5)].

Definition sample_body : option json := Some (JObj sample_members).

(** The sample with a member the schema does not declare. *)
Definition sample_members_extra : list (string * json) :=
  ("species", JStr "virginica") :: sample_members ++ [("id", JInt 101)].


(** A body without [petal_width] and with a [sepal_width] that is text. *)
Definition bad_body : option json :=
  Some (JObj [("sepal_length", JFloat 6.3); ("sepal_width", JStr "wide");
              ("petal_length", JFloat 6.0)]).

(** With the permutation above the training samples are those at the
    positions 119 down to 0. *)
Definition X_train : matrix :=
  replicate 20 [6.3; 3.3; 6.0; 2.5]%float ++
  replicate 50 [7.0; 3.2; 4.7; 1.4]%float ++
  replicate 50 [5.1; 3.5; 1.4; 0.2]%float.

Definition y_train : list Z := replicate 20 2 ++ replicate 50 1 ++ replicate 50 0.

(** The held-out samples are those at the positions 149 down to 120. *)
Definition X_test : matrix := replicate 30 [6.3; 3.3; 6.0; 2.5]%float.

Definition y_test : list Z := replicate 30 2.

(** A working directory without the directory [app]. *)
Definition bare_world : world :=
  {| dirs := {[ EmptyString ]}; files := ∅; stdout := []; entropy := 7; calls := [] |}.

(** A working directory in which [app] is a regular file. *)
Definition blocked_world : world :=
  {| dirs := {[ EmptyString ]}; files := {[ "app" := [] ]}; stdout := [];
     entropy := 7; calls := [] |}.

(** The sample with its members in the opposite order. *)
Definition sample_members_shuffled : list (string * json) :=
  [("petal_width", JFloat 2.5); ("petal_length", JFloat 6.0);
   ("sepal_width", JFloat 3.3); ("sepal_length", JFloat 6.3)].

(** The model the toy forest fits in [fresh_world]: four features, label 2. *)
Definition fitted : toy_model := (Byte.x04, Byte.x02).

Definition trained_process : @process libraries :=
  @Build_process libraries fitted [].

(** A process whose model was fitted on samples of five features, so
    that its [predict] raises on a sample of four. *)
Definition mismatched_process : @process libraries :=
  @Build_process libraries (Byte.x05, Byte.x02) [].

(** The world a run of the trainer leaves behind. *)
Definition trained_world : world := (@create_model libraries fresh_world).2.

End Toy.

(** ** Running embedded code in proofs *)

Create HintDb py discriminated.
#[export] Hint Unfold mbind mret Py_bind Py_ret res_mbind res_mret
  bind ret res_bind lift get modify log_call : py.

Ltac run_py := autounfold with py; simpl.

(** ** The Python helpers on concrete values *)

Section Examples.

Example ceil_of_test_fraction : float_ceil (0.2 * float_of_Z 150)%float = Some 30.
Proof. vm_compute. reflexivity. Qed.

Example ceil_rounds_up : float_ceil 30.25%float = Some 31.
Proof. vm_compute. reflexivity. Qed.

Example floor_of_negative : float_floor (-2.5)%float = Some (-3).
Proof. vm_compute. reflexivity. Qed.

Example int_truncates_toward_zero :
  py_int (np_float64 2.75) = Ret 2 ∧ py_int (np_float64 (-2.75)) = Ret (-2) ∧
  py_int (np_int64 2) = Ret 2.
Proof. vm_compute. done. Qed.

Example int_of_infinity_and_nan :
  py_int (np_float64 infinity) = Raise OverflowError ∧
  py_int (np_float64 nan) = Raise ValueError.
Proof. vm_compute. done. Qed.

Example dirname_of_artifact :
  dirname "app/model.pkl" = "app" ∧ dirname "model.pkl" = EmptyString.
Proof. done. Qed.

Example repeated_key_last_wins :
  dict_of_members [("a", JInt 1); ("b", JNull); ("a", JInt 2)] !! "a" = Some (JInt 2).
Proof. reflexivity. Qed.

Example ancestors_of_paths :
  ancestors "app/model.pkl" = ["app"] ∧ ancestors "a/b/c" = ["a"; "a/b"] ∧
  ancestors "model.pkl" = [].
Proof. done. Qed.

(** The largest 32-bit float fits; half a unit in the last place above it
    is the least double that overflows; a NaN does neither. *)
Example float32_range :
  fits_float32 3.4028234663852886e38 = true ∧
  overflows_float32 3.4028234663852886e38 = false ∧
  fits_float32 3.4028235677973366e38 = false ∧
  overflows_float32 3.4028235677973366e38 = true ∧
  fits_float32 (-2.5) = true ∧
  overflows_float32 1e39 = true ∧
  overflows_float32 neg_infinity = true ∧
  fits_float32 nan = false ∧ overflows_float32 nan = false.
Proof. vm_compute. done. Qed.

Example getitem_out_of_range : getitem ([] : list npscalar) 0 = Raise IndexError.
Proof. reflexivity. Qed.

End Examples.

(** ** Properties of the prediction service *)

Section ServiceProperties.
Context {L : Libraries}.

Lemma validate_field_ok (values : gmap string json) (name : string) (f : float) :
  values !! name ≫= float_validator = Some f →
  validate_field values name = inr f.
Proof.
  unfold validate_field. destruct (values !! name) as [v|]; simpl; [|done].
  intros ->. done.
Qed.

Lemma validate_field_bad (values : gmap string json) (name : string) :
  values !! name ≫= float_validator = None →
  validate_field values name =
    inl [{| loc := ["body"; name];
            type := if values !! name is Some _ then not_a_float else missing |}].
Proof.
  unfold validate_field. destruct (values !! name) as [v|]; simpl; [|done].
  intros ->. done.
Qed.

Lemma validate_field_cases (values : gmap string json) (name : string) :
  (∃ f, validate_field values name = inr f) ∨
  validate_field values name =
    inl [{| loc := ["body"; name];
            type := if values !! name is Some _ then not_a_float else missing |}].
Proof.
  destruct (values !! name ≫= float_validator) as [f|] eqn:E.
  - left. exists f. by apply validate_field_ok.
  - right. by apply validate_field_bad.
Qed.

Lemma field_is_object (body : option json) (name : string) (f : float) :
  field_is body name f → ∃ members, body = Some (JObj members).
Proof.
  unfold field_is, field_value.
  destruct body as [[]|]; simpl; try discriminate. eauto.
Qed.

Lemma validate_body_ok (body : option json) (a b c d : float) :
  field_is body "sepal_length" a → field_is body "sepal_width" b →
  field_is body "petal_length" c → field_is body "petal_width" d →
  validate_body body =
    inr {| sepal_length := a; sepal_width := b; petal_length := c; petal_width := d |}.
Proof.
  intros Ha Hb Hc Hd.
  destruct (field_is_object _ _ _ Ha) as [members ->].
  unfold field_is, field_value in *. simpl. unfold IrisInput_validate.
  by rewrite (validate_field_ok _ _ _ Ha), (validate_field_ok _ _ _ Hb),
    (validate_field_ok _ _ _ Hc), (validate_field_ok _ _ _ Hd).
Qed.

(** The handler of [/predict/] on an already validated input. *)
Lemma predict_run (input_data : IrisInput) (p : process) :
  let features := [[sepal_length input_data; sepal_width input_data;
                    petal_length input_data; petal_width input_data]] in
  let called := model_predict (model p) features in
  let p' := {| model := called.2; inference_log := inference_log p ++ [features] |} in
  predict input_data p =
    (match called.1 with
     | Ret prediction =>
         match getitem prediction 0 with
         | Ret label =>
             match py_int label with
             | Ret n => Ret [("prediction", JInt n)]
             | Raise e => Raise e
             end
         | Raise e => Raise e
         end
     | Raise e => Raise e
     end, p').
Proof.
  unfold predict, model_dot_predict. run_py. destruct (model_predict _ _) as [[prediction|e] m]; simpl; [|done].
  destruct (getitem prediction 0) as [label|e]; simpl; [|done].
  by destruct (py_int label).
Qed.

(** The response at a position of a served sequence is the application's
    response to that request in the state the earlier requests left. *)
Lemma serve_lookup (requests : list request) (p : process) (i : nat) (r : request) :
  requests !! i = Some r →
  ∃ earlier : process, (serve requests p).1 !! i = Some (app r earlier).1.
Proof.
  revert p i. induction requests as [|r0 rest IH]; intros p i Hi; [done|].
  simpl. destruct (app r0 p) as [resp p'] eqn:Happ.
  destruct (serve rest p') as [resps p''] eqn:Hserve.
  destruct i as [|i]; simpl in *.
  - injection Hi as ->. exists p. by rewrite Happ.
  - destruct (IH p' i Hi) as [earlier Hearlier]. exists earlier.
    by rewrite Hserve in Hearlier.
Qed.

(** C6. Every invocation of the welcome operation (GET on path "/",
    whatever the body) succeeds with the fixed greeting
    [{"message": "Welcome to the ML Model API"}] and leaves the process
    state as it found it; and wherever such a request stands in a sequence
    of served requests, whatever came before it, its response is that
    greeting. *)
Theorem welcome_returns_greeting
  (p : process) (body : option json) (requests : list request) (i : nat) :
  app (welcome_request body) p =
    (OK [("message", JStr "Welcome to the ML Model API")], p) ∧
  (requests !! i = Some (welcome_request body) →
   (serve requests p).1 !! i =
     Some (OK [("message", JStr "Welcome to the ML Model API")])).
Proof.
  split; [done|]. intros Hi.
  by destruct (serve_lookup requests p i _ Hi) as [earlier ->].
Qed.

(** C1. For every request to the predict operation whose four fields are
    present and coerce to the floats a, b, c, d, the handler calls the
    model's inference method exactly once more, on the single feature
    vector [[a, b, c, d]] in that order, and when that call answers an
    array of labels the response is [{"prediction": n}] with n the first
    label converted by [int]. *)
Theorem predict_passes_features_and_returns_label
  (p : process) (body : option json) (a b c d : float) :
  field_is body "sepal_length" a → field_is body "sepal_width" b →
  field_is body "petal_length" c → field_is body "petal_width" d →
  let features := [[a; b; c; d]] in
  let outcome := app (predict_request body) p in
  inference_log outcome.2 = inference_log p ++ [features] ∧
  model outcome.2 = (model_predict (model p) features).2 ∧
  ∀ (label : npscalar) (rest : list npscalar) (n : Z),
    (model_predict (model p) features).1 = Ret (label :: rest) →
    py_int label = Ret n →
    outcome.1 = OK [("prediction", JInt n)].
Proof.
  intros Ha Hb Hc Hd features outcome. subst outcome.
  unfold app, predict_request. simpl.
  rewrite (validate_body_ok _ _ _ _ _ Ha Hb Hc Hd).
  unfold run_endpoint. rewrite predict_run. simpl. fold features.
  destruct (model_predict (model p) features) as [[prediction|e] m] eqn:E; simpl.
  - split_and!; [| |intros label rest n [= ->] Hn; simpl; by rewrite Hn];
      by destruct (getitem prediction 0) as [label|?]; [destruct (py_int label)|].
  - by split_and!.
Qed.

(** A [dict] with a bad declared field is refused, with an entry for that
    field among the errors. *)
Lemma IrisInput_validate_bad (values : gmap string json) (name : string) :
  name ∈ field_names →
  values !! name ≫= float_validator = None →
  ∃ errors,
    IrisInput_validate values = inl errors ∧
    {| loc := ["body"; name];
       type := if values !! name is Some _ then not_a_float else missing |} ∈ errors.
Proof.
  intros Hname Hbad. pose proof (validate_field_bad _ _ Hbad) as Hv.
  unfold IrisInput_validate, field_names in *.
  repeat (apply elem_of_cons in Hname as [->|Hname]);
    try (by apply elem_of_nil in Hname);
    destruct (validate_field values "sepal_length") as [e1|f1] eqn:E1,
      (validate_field values "sepal_width") as [e2|f2] eqn:E2,
      (validate_field values "petal_length") as [e3|f3] eqn:E3,
      (validate_field values "petal_width") as [e4|f4] eqn:E4;
    simplify_eq; (eexists; split; [reflexivity|]); simpl;
    rewrite ?elem_of_app, ?elem_of_cons; tauto.
Qed.

(** C2. For every request to the predict operation in which one of the
    four required fields is missing or is not coercible to a float, the
    answer is a validation error (status 422) with a non-empty list of
    entries, which for a JSON object names the offending field and says
    whether it is missing or not a float; the process state is returned
    untouched, so the model's inference method has not been called. *)
Theorem predict_rejects_bad_field
  (p : process) (body : option json) (name : string) :
  name ∈ field_names →
  field_is_bad body name →
  ∃ errors : list error_detail,
    errors ≠ [] ∧
    app (predict_request body) p = (UnprocessableEntity errors, p) ∧
    inference_log (app (predict_request body) p).2 = inference_log p ∧
    ∀ members, body = Some (JObj members) →
      {| loc := ["body"; name];
         type := if field_value body name is Some _ then not_a_float else missing |}
      ∈ errors.
Proof.
  intros Hname Hbad. unfold app, predict_request. simpl.
  destruct body as [[ | | | | | |members]|]; simpl;
    try (eexists; split_and!; [| reflexivity | reflexivity | intros ? [=]]; done).
  destruct (IrisInput_validate_bad _ _ Hname Hbad) as (errors & -> & Hin).
  exists errors. split_and!; [|done|done|by intros ? _].
  intros ->. by apply elem_of_nil in Hin.
Qed.

(** Validation looks at the declared fields only. *)
Lemma IrisInput_validate_ext (values1 values2 : gmap string json) :
  (∀ name, name ∈ field_names → values1 !! name = values2 !! name) →
  IrisInput_validate values1 = IrisInput_validate values2.
Proof.
  intros H. unfold IrisInput_validate, validate_field.
  by rewrite !H by (unfold field_names; set_solver).
Qed.

(** C10. Two predict requests whose JSON objects give the same values to
    the four declared fields, and differ in other members only, are
    validated alike and answered alike; when the four fields are valid in
    the first, both pass validation with the same input.  Members that
    the schema does not declare have no influence. *)
Theorem extra_fields_are_ignored
  (p : process) (members1 members2 : list (string * json)) :
  (∀ name, name ∈ field_names →
     dict_of_members members1 !! name = dict_of_members members2 !! name) →
  validate_body (Some (JObj members1)) = validate_body (Some (JObj members2)) ∧
  app (predict_request (Some (JObj members1))) p =
    app (predict_request (Some (JObj members2))) p ∧
  ∀ a b c d : float,
    field_is (Some (JObj members1)) "sepal_length" a →
    field_is (Some (JObj members1)) "sepal_width" b →
    field_is (Some (JObj members1)) "petal_length" c →
    field_is (Some (JObj members1)) "petal_width" d →
    validate_body (Some (JObj members2)) =
      inr {| sepal_length := a; sepal_width := b; petal_length := c; petal_width := d |}.
Proof.
  intros Hagree.
  assert (validate_body (Some (JObj members1)) = validate_body (Some (JObj members2)))
    as Hv by (simpl; by apply IrisInput_validate_ext).
  split_and!; [done| |].
  - unfold app, predict_request. simpl body. by rewrite Hv.
  - intros a b c d Ha Hb Hc Hd. rewrite <- Hv. by apply validate_body_ok.
Qed.

(** What a request does to the process, and what it depends on. *)
Lemma app_keeps_model (r : request) (p : process) :
  predict_is_read_only → model (app r p).2 = model p.
Proof.
  intros Hro. unfold app.
  destruct (method r); try done.
  - by destruct (String.eqb (path r) "/").
  - destruct (String.eqb (path r) "/predict/"); [|done].
    destruct (validate_body (body r)) as [errors|input_data]; [done|].
    unfold run_endpoint. rewrite predict_run. simpl.
    rewrite Hro.
    by repeat (case_match; simpl).
Qed.

Lemma app_response_of_model (r : request) (p1 p2 : process) :
  model p1 = model p2 → (app r p1).1 = (app r p2).1.
Proof.
  intros Hm. unfold app.
  destruct (method r); try done.
  - by destruct (String.eqb (path r) "/").
  - destruct (String.eqb (path r) "/predict/"); [|done].
    destruct (validate_body (body r)) as [errors|input_data]; [done|].
    unfold run_endpoint. rewrite !predict_run. simpl. rewrite Hm.
    by repeat (case_match; simpl).
Qed.

(** The process in which only the loaded model is known. *)
Lemma serve_cons (r : request) (rest : list request) (p : process) :
  serve (r :: rest) p =
    ((app r p).1 :: (serve rest (app r p).2).1, (serve rest (app r p).2).2).
Proof. simpl. destruct (app r p) as [resp p']. simpl. by destruct (serve rest p'). Qed.

Lemma serve_responses (requests : list request) (p : process) :
  predict_is_read_only →
  model (serve requests p).2 = model p ∧
  (serve requests p).1 =
    (λ r, (app r {| model := model p; inference_log := [] |}).1) <$> requests.
Proof.
  intros Hro. revert p. induction requests as [|r rest IH]; intros p; [done|].
  rewrite serve_cons. simpl.
  destruct (IH (app r p).2) as [IHm IHr].
  rewrite IHm, IHr, (app_keeps_model r p Hro). split; [done|].
  f_equal. by apply app_response_of_model.
Qed.

(** C4. Under the library's guarantee that [predict] does not change the
    estimator, both operations are functions of the loaded model and the
    request alone: while any sequence of requests is served the loaded
    model stays the one that was loaded, every response is the one the
    same request gets from a process that has just loaded that model, and
    so two occurrences of one request get the same response wherever they
    stand in the sequence. *)
Theorem operations_are_stateless (p : process) (requests : list request) :
  predict_is_read_only →
  model (serve requests p).2 = model p ∧
  (serve requests p).1 =
    (λ r, (app r {| model := model p; inference_log := [] |}).1) <$> requests ∧
  ∀ (i j : nat) (r : request),
    requests !! i = Some r → requests !! j = Some r →
    (serve requests p).1 !! i = (serve requests p).1 !! j.
Proof.
  intros Hro. destruct (serve_responses requests p Hro) as [Hm Hr].
  split_and!; [done|done|].
  intros i j r Hi Hj. by rewrite Hr, !list_lookup_fmap, Hi, Hj.
Qed.

(** What [joblib.load] does, case by case. *)
Lemma load_run (filename : string) (w : world) :
  Joblib.load filename w =
    (if decide (filename ∈ dirs w) then Raise (IsADirectoryError filename)
     else match files w !! filename with
          | Some blob => unpickle blob
          | None => Raise (missing_path_error filename w)
          end,
     add_calls [CallJoblibLoad filename] w).
Proof.
  unfold Joblib.load, read_file. run_py.
  destruct (decide (filename ∈ dirs w)); [done|].
  by destruct (files w !! filename).
Qed.

Lemma service_run (requests : list request) (w : world) :
  service requests w =
    (match (Joblib.load "app/model.pkl" w).1 with
     | Ret loaded => Ret (serve requests {| model := loaded; inference_log := [] |})
     | Raise e => Raise e
     end,
     add_calls [CallJoblibLoad "app/model.pkl"] w).
Proof.
  unfold service, startup. autounfold with py.
  rewrite load_run. simpl.
  destruct (decide _); [done|].
  destruct (files w !! _) as [blob|]; [|done].
  by destruct (unpickle blob).
Qed.


End ServiceProperties.

(** ** Properties of the trainer *)

Section TrainerProperties.
Context {L : Libraries}.

Lemma add_calls_add_calls (c1 c2 : list lib_call) (w : world) :
  add_calls c2 (add_calls c1 w) = add_calls (c1 ++ c2) w.
Proof. unfold add_calls. simpl. by rewrite <- app_assoc. Qed.

(** A run of the script, stage by stage: each stage either raises, which
    ends the run, or hands its result to the next. *)
Lemma create_model_run (w : world) :
  let X := Bunch_data iris_bunch in
  let y := Bunch_target iris_bunch in
  let c1 := [CallLoadIris; CallTrainTestSplit X y 0.2 42] in
  create_model w =
    match Sklearn.shuffle_split X y 0.2 42 with
    | Raise e => (Raise e, add_calls c1 w)
    | Ret (X_train, X_test, y_train, y_test) =>
        let c2 := c1 ++ [CallRandomForestClassifier []; CallFit [] X_train y_train] in
        match forest_fit [] (entropy w) X_train y_train with
        | Raise e => (Raise e, add_calls c2 w)
        | Ret m =>
            let c3 := c2 ++ [CallJoblibDump "app/model.pkl"] in
            if decide ("app/model.pkl" ∈ dirs w)
            then (Raise (IsADirectoryError "app/model.pkl"), add_calls c3 w)
            else if decide ("app" ∈ dirs w)
            then (Ret tt,
                  {| dirs := dirs w;
                     files := <["app/model.pkl" := pickle m]> (files w);
                     stdout := stdout w ++ ["Model trained and saved at app/model.pkl"];
                     entropy := entropy w;
                     calls := calls w ++ trainer_calls X_train y_train |})
            else (Raise (missing_path_error "app/model.pkl" w), add_calls c3 w)
        end
    end.
Proof.
  simpl. unfold create_model, Sklearn.load_iris, Sklearn.train_test_split,
    Sklearn.RandomForestClassifier, Sklearn.fit, Joblib.dump, print, write_file.
  run_py.
  destruct (Sklearn.shuffle_split _ _ _ _) as [[[[X_train X_test] y_train] y_test]|e];
    simpl; [|by rewrite add_calls_add_calls].
  destruct (forest_fit [] (entropy w) X_train y_train) as [m|e]; simpl;
    [|by rewrite !add_calls_add_calls].
  destruct (decide ("app/model.pkl" ∈ dirs w)); simpl;
    [by rewrite !add_calls_add_calls|].
  destruct (decide ("app" ∈ dirs w)); simpl; [|by rewrite !add_calls_add_calls].
  unfold add_calls, trainer_calls. simpl. by rewrite <- !app_assoc.
Qed.

(** C8. Whatever a run of the trainer does, it leaves the directories and
    every file other than [app/model.pkl] as they were; a run that
    completes leaves at [app/model.pkl] the serialisation of the model it
    fitted, whatever was stored there before; a run that raises leaves
    all files as they were. *)
Theorem trainer_writes_only_the_artifact (w : world) :
  let run := create_model w in
  dirs run.2 = dirs w ∧
  (∀ path : string,
     path ≠ "app/model.pkl" → files run.2 !! path = files w !! path) ∧
  (run.1 = Ret tt →
   ∃ (m : Model) (X_train : matrix) (y_train : list Z),
     forest_fit [] (entropy w) X_train y_train = Ret m ∧
     files run.2 = <["app/model.pkl" := pickle m]> (files w) ∧
     files run.2 !! "app/model.pkl" = Some (pickle m)) ∧
  (∀ e, run.1 = Raise e → files run.2 = files w).
Proof.
  simpl. rewrite create_model_run. simpl.
  destruct (Sklearn.shuffle_split _ _ _ _) as [[[[X_train X_test] y_train] y_test]|e];
    simpl; [|by split_and!].
  destruct (forest_fit [] (entropy w) X_train y_train) as [m|e] eqn:Hfit; simpl;
    [|by split_and!].
  destruct (decide ("app/model.pkl" ∈ dirs w)); simpl; [by split_and!|].
  destruct (decide ("app" ∈ dirs w)); simpl; [|by split_and!].
  split_and!; [done| |intros _|done].
  - intros path Hne. by rewrite lookup_insert_ne.
  - exists m, X_train, y_train. split_and!; [done|done|by rewrite lookup_insert_eq].
Qed.









End TrainerProperties.

(** ** The trainer and the service together *)

Section EndToEnd.
Context {L : Libraries}.

Lemma app_predict_valid (p : process) (body : option json) (a b c d : float) :
  field_is body "sepal_length" a → field_is body "sepal_width" b →
  field_is body "petal_length" c → field_is body "petal_width" d →
  app (predict_request body) p =
    run_endpoint
      (predict {| sepal_length := a; sepal_width := b;
                  petal_length := c; petal_width := d |}) p.
Proof.
  intros Ha Hb Hc Hd. unfold app, predict_request. simpl.
  by rewrite (validate_body_ok _ _ _ _ _ Ha Hb Hc Hd).
Qed.



End EndToEnd.

(** ** The toy libraries meet the contracts *)

Section ToyContracts.
Existing Instance Toy.libraries.

Lemma toy_predict_is_read_only : predict_is_read_only.
Proof. by intros m X. Qed.

Lemma toy_pickle_round_trip : pickle_round_trip.
Proof. by intros [w l]. Qed.







End ToyContracts.

(** ** The statements at concrete inputs *)

Section Witnesses.
Existing Instance Toy.libraries.



Lemma toy_trainer_run : create_model Toy.fresh_world = (Ret tt, Toy.trained_world).
Proof.
  unfold Toy.trained_world. apply injective_projections; [|done].
  vm_compute. reflexivity.
Qed.

Lemma predict_passes_features_and_returns_label_witness :
  field_is Toy.sample_body "sepal_length" 6.3 ∧
  field_is Toy.sample_body "sepal_width" 3.3 ∧
  field_is Toy.sample_body "petal_length" 6.0 ∧
  field_is Toy.sample_body "petal_width" 2.5 ∧
  inference_log (app (predict_request Toy.sample_body) Toy.trained_process).2 =
    [[[6.3; 3.3; 6.0; 2.5]%float]] ∧
  (app (predict_request Toy.sample_body) Toy.trained_process).1 =
    OK [("prediction", JInt 2)].
Proof.
  assert (field_is Toy.sample_body "sepal_length" 6.3) as Ha by reflexivity.
  assert (field_is Toy.sample_body "sepal_width" 3.3) as Hb by reflexivity.
  assert (field_is Toy.sample_body "petal_length" 6.0) as Hc by reflexivity.
  assert (field_is Toy.sample_body "petal_width" 2.5) as Hd by reflexivity.
  destruct (predict_passes_features_and_returns_label
              Toy.trained_process Toy.sample_body _ _ _ _ Ha Hb Hc Hd)
    as (Hlog & _ & Hresp).
  split_and!; [exact Ha|exact Hb|exact Hc|exact Hd|exact Hlog|].
  apply (Hresp (np_int64 2) [] 2); reflexivity.
Defined.

Lemma welcome_returns_greeting_witness :
  let requests :=
    [predict_request Toy.sample_body; predict_request Toy.bad_body;
     welcome_request None] in
  requests !! 2%nat = Some (welcome_request None) ∧
  (serve requests Toy.trained_process).1 !! 2%nat =
    Some (OK [("message", JStr "Welcome to the ML Model API")]).
Proof.
  intros requests. split; [reflexivity|].
  by apply (welcome_returns_greeting Toy.trained_process None requests 2).
Defined.

Lemma predict_rejects_bad_field_witness :
  "petal_width" ∈ field_names ∧
  field_is_bad Toy.bad_body "petal_width" ∧
  ∃ errors : list error_detail,
    app (predict_request Toy.bad_body) Toy.trained_process =
      (UnprocessableEntity errors, Toy.trained_process) ∧
    {| loc := ["body"; "petal_width"]; type := missing |} ∈ errors.
Proof.
  assert ("petal_width" ∈ field_names) as Hname
    by (unfold field_names; set_solver).
  assert (field_is_bad Toy.bad_body "petal_width") as Hbad by reflexivity.
  destruct (predict_rejects_bad_field Toy.trained_process Toy.bad_body _ Hname Hbad)
    as (errors & _ & Hresp & _ & Hentry).
  split_and!; [exact Hname|exact Hbad|].
  exists errors. split; [exact Hresp|]. exact (Hentry _ eq_refl).
Defined.

Lemma extra_fields_are_ignored_witness :
  (∀ name, name ∈ field_names →
     dict_of_members Toy.sample_members !! name =
       dict_of_members Toy.sample_members_extra !! name) ∧
  app (predict_request (Some (JObj Toy.sample_members))) Toy.trained_process =
    app (predict_request (Some (JObj Toy.sample_members_extra))) Toy.trained_process.
Proof.
  assert (∀ name, name ∈ field_names →
            dict_of_members Toy.sample_members !! name =
              dict_of_members Toy.sample_members_extra !! name) as Hagree.
  { intros name Hname. unfold field_names in Hname.
    repeat (apply elem_of_cons in Hname as [->|Hname]); try reflexivity.
    by apply elem_of_nil in Hname. }
  split; [done|].
  by destruct (extra_fields_are_ignored Toy.trained_process
                 Toy.sample_members Toy.sample_members_extra Hagree) as (_ & ? & _).
Defined.

Lemma operations_are_stateless_witness :
  predict_is_read_only ∧
  let requests :=
    [predict_request Toy.sample_body; predict_request Toy.bad_body;
     welcome_request None; predict_request Toy.sample_body] in
  (serve requests Toy.trained_process).1 !! 0%nat =
    (serve requests Toy.trained_process).1 !! 3%nat.
Proof.
  split; [exact toy_predict_is_read_only|]. intros requests.
  destruct (operations_are_stateless Toy.trained_process requests
              toy_predict_is_read_only) as (_ & _ & Hsame).
  by apply (Hsame 0%nat 3%nat (predict_request Toy.sample_body)).
Defined.


Lemma trainer_writes_only_the_artifact_witness :
  (create_model Toy.fresh_world).1 = Ret tt ∧
  ∃ m : Model,
    files (create_model Toy.fresh_world).2 !! "app/model.pkl" = Some (pickle m).
Proof.
  assert ((create_model Toy.fresh_world).1 = Ret tt) as Hrun
    by (vm_compute; reflexivity).
  split; [done|].
  destruct (trainer_writes_only_the_artifact Toy.fresh_world) as (_ & _ & Hdone & _).
  destruct (Hdone Hrun) as (m & _ & _ & _ & _ & Hfile).
  by exists m.
Defined.




End Witnesses.

(** ** Further properties of the prediction service *)

Section MoreServiceProperties.
Context {L : Libraries}.

(** X1. The handler of the predict operation catches nothing.  On a
    request whose four fields are valid, the answer is a server error
    (status 500) when the model's [predict] raises, when it answers an
    empty array, and when its first label is a float that [int] cannot
    convert; in the one remaining case, a first label that [int] converts
    to n, it is [{"prediction": n}].  Either way the call to the model
    has been made, once. *)
Theorem predict_answers_prediction_or_server_error
  (p : process) (body : option json) (a b c d : float) :
  field_is body "sepal_length" a → field_is body "sepal_width" b →
  field_is body "petal_length" c → field_is body "petal_width" d →
  let called := (model_predict (model p) [[a; b; c; d]]).1 in
  let outcome := app (predict_request body) p in
  (∀ e, called = Raise e → outcome.1 = InternalServerError) ∧
  (called = Ret [] → outcome.1 = InternalServerError) ∧
  (∀ label rest e,
     called = Ret (label :: rest) → py_int label = Raise e →
     outcome.1 = InternalServerError) ∧
  (∀ label rest n,
     called = Ret (label :: rest) → py_int label = Ret n →
     outcome.1 = OK [("prediction", JInt n)]) ∧
  (outcome.1 = InternalServerError ∨ ∃ n, outcome.1 = OK [("prediction", JInt n)]) ∧
  inference_log outcome.2 = inference_log p ++ [[[a; b; c; d]]].
Proof.
  intros Ha Hb Hc Hd called outcome. subst called outcome.
  rewrite (app_predict_valid _ _ _ _ _ _ Ha Hb Hc Hd).
  unfold run_endpoint. rewrite predict_run. simpl.
  destruct (model_predict (model p) [[a; b; c; d]]) as [[[|label rest]|e] m]; simpl.
  - split_and!; try done. by left.
  - destruct (py_int label) as [n|e] eqn:Hint; simpl;
      (split_and!;
         [done|done
         |intros label' rest' e' [= <- <-] Hraise; congruence
         |intros label' rest' n' [= <- <-] Hn; congruence
         |first [by left|right; by eexists]
         |done]).
  - split_and!; try done. by left.
Qed.

(** What one request adds to the log of inference calls. *)
Lemma app_inference_log (r : request) (p : process) :
  inference_log (app r p).2 = inference_log p ++ option_list (features_of r).
Proof.
  unfold app, features_of.
  destruct (method r); simpl; try by rewrite app_nil_r.
  - destruct (String.eqb (path r) "/"); simpl; by rewrite app_nil_r.
  - destruct (String.eqb (path r) "/predict/"); simpl; [|by rewrite app_nil_r].
    destruct (validate_body (body r)) as [errors|input_data]; simpl;
      [by rewrite app_nil_r|].
    unfold run_endpoint. rewrite predict_run. simpl.
    by repeat (case_match; simpl).
Qed.

Lemma features_of_shape (r : request) (X : matrix) :
  features_of r = Some X → ∃ a b c d : float, X = [[a; b; c; d]].
Proof.
  unfold features_of. repeat case_match; try done. intros [= <-]. eauto.
Qed.

(** X2. While any sequence of requests is served, the model is called
    once for each POST to [/predict/] whose body passes validation, in the
    order of the requests, each time on a single row of four floats, and
    it is called for nothing else. *)
Theorem model_sees_exactly_the_valid_predict_requests
  (requests : list request) (p : process) :
  inference_log (serve requests p).2 = inference_log p ++ omap features_of requests ∧
  Forall (λ X, ∃ a b c d : float, X = [[a; b; c; d]]) (omap features_of requests).
Proof.
  split.
  - revert p. induction requests as [|r rest IH]; intros p; simpl.
    + by rewrite app_nil_r.
    + pose proof (app_inference_log r p) as Hr.
      destruct (app r p) as [resp p']. specialize (IH p').
      destruct (serve rest p') as [resps p'']. simpl in *.
      rewrite IH, Hr, <- app_assoc. f_equal.
      by destruct (features_of r).
  - induction requests as [|r rest IH]; simpl; [done|].
    destruct (features_of r) as [X|] eqn:HX; [|done].
    constructor; [|done]. by eapply features_of_shape.
Qed.

(** X3. A request that does not reach the model (a welcome request, a
    request for another route or method, a predict request that fails
    validation) leaves the process exactly as it was, and its response is
    the same whatever model is loaded. *)
Theorem other_requests_do_not_touch_the_process
  (r : request) (p p' : process) :
  features_of r = None →
  (app r p).2 = p ∧ (app r p).1 = (app r p').1.
Proof.
  unfold features_of, app.
  destruct (method r); try done.
  - by destruct (String.eqb (path r) "/").
  - destruct (String.eqb (path r) "/predict/"); [|done].
    by destruct (validate_body (body r)).
Qed.

Lemma validate_field_inr (values : gmap string json) (name : string) (f : float) :
  validate_field values name = inr f ↔ values !! name ≫= float_validator = Some f.
Proof.
  split; [|apply validate_field_ok].
  unfold validate_field. destruct (values !! name) as [v|]; simpl; [|done].
  by destruct (float_validator v); intros [= ->].
Qed.

(** X4. Validation accepts a body exactly when all four declared fields
    are present and coercible, and the input it builds holds, under each
    field name, the coerced value of the member of that name. *)
Theorem validate_body_accepts_iff (body : option json) (input_data : IrisInput) :
  validate_body body = inr input_data ↔
  field_is body "sepal_length" (sepal_length input_data) ∧
  field_is body "sepal_width" (sepal_width input_data) ∧
  field_is body "petal_length" (petal_length input_data) ∧
  field_is body "petal_width" (petal_width input_data).
Proof.
  split.
  - destruct body as [[ | | | | | |members]|]; try done. simpl.
    unfold IrisInput_validate, field_is, field_value.
    destruct (validate_field _ "sepal_length") as [?|f1] eqn:E1; [done|].
    destruct (validate_field _ "sepal_width") as [?|f2] eqn:E2; [done|].
    destruct (validate_field _ "petal_length") as [?|f3] eqn:E3; [done|].
    destruct (validate_field _ "petal_width") as [?|f4] eqn:E4; [done|].
    intros [= <-]. simpl. by rewrite <- !validate_field_inr.
  - intros (Ha & Hb & Hc & Hd). destruct input_data. by apply validate_body_ok.
Qed.

Lemma validate_field_error (values : gmap string json) (name : string) :
  (∃ f, validate_field values name = inr f ∧ field_error values name = None) ∨
  (∃ e, validate_field values name = inl [e] ∧ field_error values name = Some e).
Proof.
  unfold validate_field, field_error.
  destruct (values !! name) as [v|]; simpl; [|right; eauto].
  destruct (float_validator v) as [f|]; [left|right]; eauto.
Qed.

(** X5. When a JSON object is refused, the error list has exactly one
    entry for each declared field that is missing or not a float, in the
    order in which the schema declares the fields, and no other entry;
    and an object is refused exactly when that list is not empty. *)
Theorem validation_reports_every_bad_field
  (values : gmap string json) (errors : list error_detail) :
  IrisInput_validate values = inl errors ↔
  errors = omap (field_error values) field_names ∧ errors ≠ [].
Proof.
  unfold IrisInput_validate, field_names. simpl omap.
  destruct (validate_field_error values "sepal_length") as [(f1 & -> & ->)|(e1 & -> & ->)],
    (validate_field_error values "sepal_width") as [(f2 & -> & ->)|(e2 & -> & ->)],
    (validate_field_error values "petal_length") as [(f3 & -> & ->)|(e3 & -> & ->)],
    (validate_field_error values "petal_width") as [(f4 & -> & ->)|(e4 & -> & ->)];
    simpl;
    (split; [intros [= <-]; by split | by intros [-> ?]]).
Qed.

(** In a list of members with distinct keys, the order of the members
    does not matter to the [dict] built from them. *)
Lemma dict_of_members_permutation (members1 members2 : list (string * json)) :
  NoDup members1.*1 → members1 ≡ₚ members2 →
  dict_of_members members1 = dict_of_members members2.
Proof.
  intros Hnodup Hperm. unfold dict_of_members.
  apply list_to_map_proper.
  - by rewrite fmap_reverse, reverse_Permutation.
  - by rewrite !reverse_Permutation.
Qed.

(** X6. The order of the members of the request's JSON object does not
    matter: two predict requests whose objects have the same members with
    distinct keys, in any order, are answered alike. *)
Theorem member_order_is_irrelevant
  (p : process) (members1 members2 : list (string * json)) :
  NoDup members1.*1 → members1 ≡ₚ members2 →
  app (predict_request (Some (JObj members1))) p =
    app (predict_request (Some (JObj members2))) p.
Proof.
  intros Hnodup Hperm. unfold app, predict_request. simpl.
  by rewrite (dict_of_members_permutation _ _ Hnodup Hperm).
Qed.

End MoreServiceProperties.

(** ** Further properties of start-up and of the trainer *)

Section MoreTrainerProperties.
Context {L : Libraries}.

Lemma serve_length (requests : list request) (p : process) :
  length (serve requests p).1 = length requests.
Proof.
  revert p. induction requests as [|r rest IH]; intros p; [done|].
  rewrite serve_cons. simpl. by rewrite IH.
Qed.

(** X7. The service starts exactly when [app/model.pkl] is a regular
    file whose contents deserialise to a model (a directory at that path
    fails like a missing file); and once started it answers every request
    it is given, one response for each. *)
Theorem service_starts_iff_artifact_loads (requests : list request) (w : world) :
  ((∃ answered, (service requests w).1 = Ret answered) ↔
   ("app/model.pkl" ∉ dirs w) ∧
   ∃ blob m, files w !! "app/model.pkl" = Some blob ∧ unpickle blob = Ret m) ∧
  (∀ responses final,
     (service requests w).1 = Ret (responses, final) →
     length responses = length requests).
Proof.
  rewrite service_run, load_run. simpl.
  destruct (decide ("app/model.pkl" ∈ dirs w)) as [Hdir|Hdir].
  { split; [|done]. split; [by intros [? ?]|by intros [? _]]. }
  destruct (files w !! "app/model.pkl") as [blob|].
  - destruct (unpickle blob) as [m|e] eqn:Hload.
    + split.
      * split; [intros _; split; [done|]|]; eauto.
      * intros responses final [= Hserve].
        rewrite <- (serve_length requests {| model := m; inference_log := [] |}).
        by rewrite Hserve.
    + split; [|done]. split; [by intros [? ?]|].
      intros (_ & blob' & m & [= <-] & Hm). congruence.
  - split; [|done]. split; [by intros [? ?]|]. by intros (_ & ? & ? & ? & _).
Qed.

Lemma startup_run (w : world) :
  startup w =
    (match (Joblib.load "app/model.pkl" w).1 with
     | Ret loaded => Ret {| model := loaded; inference_log := [] |}
     | Raise e => Raise e
     end,
     add_calls [CallJoblibLoad "app/model.pkl"] w).
Proof.
  unfold startup. autounfold with py. rewrite load_run. simpl.
  destruct (decide _); [done|].
  destruct (files w !! _) as [blob|]; [|done].
  by destruct (unpickle blob).
Qed.

(** X8. What the trainer dumps is what the service loads: when a model
    read back from its serialisation is the model, the start-up code run
    on the files a completed trainer run left succeeds, and the model it
    binds is the one the trainer's [fit] returned. *)
Theorem service_loads_the_fitted_model (w0 w1 : world) :
  pickle_round_trip →
  create_model w0 = (Ret tt, w1) →
  ∃ (m : Model) (X_train : matrix) (y_train : list Z),
    forest_fit [] (entropy w0) X_train y_train = Ret m ∧
    startup w1 =
      (Ret {| model := m; inference_log := [] |},
       add_calls [CallJoblibLoad "app/model.pkl"] w1).
Proof.
  intros Hround Hrun. rewrite create_model_run in Hrun. simpl in Hrun.
  destruct (Sklearn.shuffle_split _ _ _ _) as [[[[X_train X_test] y_train] y_test]|e];
    [|done].
  destruct (forest_fit [] (entropy w0) X_train y_train) as [m|e] eqn:Hfit; [|done].
  destruct (decide ("app/model.pkl" ∈ dirs w0)) as [|Hnodir]; [done|].
  destruct (decide ("app" ∈ dirs w0)); [|done].
  injection Hrun as <-.
  exists m, X_train, y_train. split; [done|].
  rewrite startup_run, load_run. simpl.
  by rewrite decide_False, lookup_insert_eq, Hround.
Qed.

(** X9. The confirmation line is printed only after the artifact has
    been written: a run of the trainer either completes, and then the
    artifact holds a serialised model and the line is the one thing
    printed, or it raises, and then nothing is printed and no file is
    changed. *)
Theorem confirmation_only_after_the_artifact (w : world) :
  let run := create_model w in
  (run.1 = Ret tt ∧
   stdout run.2 = stdout w ++ ["Model trained and saved at app/model.pkl"] ∧
   ∃ m : Model, files run.2 !! "app/model.pkl" = Some (pickle m)) ∨
  (∃ e, run.1 = Raise e ∧ stdout run.2 = stdout w ∧ files run.2 = files w).
Proof.
  simpl. rewrite create_model_run. simpl.
  destruct (Sklearn.shuffle_split _ _ _ _) as [[[[X_train X_test] y_train] y_test]|e];
    [|right; eauto].
  destruct (forest_fit [] (entropy w) X_train y_train) as [m|e]; [|right; eauto].
  destruct (decide ("app/model.pkl" ∈ dirs w)); [right; eauto|].
  destruct (decide ("app" ∈ dirs w)); [|right; eauto].
  left. simpl. split_and!; [done|done|]. exists m. by rewrite lookup_insert_eq.
Qed.

Lemma missing_artifact_error (w : world) :
  missing_path_error "app/model.pkl" w =
    match files w !! "app" with
    | Some _ => NotADirectoryError "app/model.pkl"
    | None => FileNotFoundError "app/model.pkl"
    end.
Proof.
  unfold missing_path_error.
  change (ancestors "app/model.pkl") with ["app"].
  destruct (files w !! "app") as [data|] eqn:Happ.
  - rewrite decide_True; [done|]. apply Exists_cons_hd. by rewrite Happ.
  - rewrite decide_False; [done|].
    intros [Hsome|Hnil]%Exists_cons.
    + rewrite Happ in Hsome. by destruct Hsome.
    + by apply Exists_nil in Hnil.
Qed.

(** X10. The trainer does not create the directory of the artifact.  In
    a working directory without a directory [app] no run completes; and
    when the split and the fit succeed there, the run has trained the
    model before it fails: it raises at the dump, after the call to
    [fit], with no file written and nothing printed.  The exception is
    [FileNotFoundError] when nothing is called [app], and
    [NotADirectoryError] when [app] is a regular file. *)
Theorem trainer_needs_the_app_directory (w : world) :
  "app" ∉ dirs w →
  (∃ e, (create_model w).1 = Raise e) ∧
  ∀ (X_train X_test : matrix) (y_train y_test : list Z) (m : Model),
    Sklearn.shuffle_split (Bunch_data iris_bunch) (Bunch_target iris_bunch) 0.2 42 =
      Ret (X_train, X_test, y_train, y_test) →
    forest_fit [] (entropy w) X_train y_train = Ret m →
    "app/model.pkl" ∉ dirs w →
    create_model w =
      (Raise match files w !! "app" with
             | Some _ => NotADirectoryError "app/model.pkl"
             | None => FileNotFoundError "app/model.pkl"
             end,
       add_calls (calls_up_to_dump X_train y_train) w).
Proof.
  intros Hnoapp. rewrite create_model_run. simpl. split.
  - destruct (Sklearn.shuffle_split _ _ _ _) as [[[[X_train X_test] y_train] y_test]|e];
      [|eauto].
    destruct (forest_fit [] (entropy w) X_train y_train) as [m|e]; [|eauto].
    destruct (decide ("app/model.pkl" ∈ dirs w)); [eauto|].
    rewrite decide_False by done. eauto.
  - intros X_train X_test y_train y_test m -> -> Hnodir.
    by rewrite !decide_False, missing_artifact_error by done.
Qed.

End MoreTrainerProperties.

(** ** The further statements at concrete inputs *)

Section MoreWitnesses.
Existing Instance Toy.libraries.

Lemma predict_answers_prediction_or_server_error_witness :
  field_is Toy.sample_body "sepal_length" 6.3 ∧
  field_is Toy.sample_body "sepal_width" 3.3 ∧
  field_is Toy.sample_body "petal_length" 6.0 ∧
  field_is Toy.sample_body "petal_width" 2.5 ∧
  (app (predict_request Toy.sample_body) Toy.mismatched_process).1 =
    InternalServerError ∧
  (app (predict_request Toy.sample_body) Toy.trained_process).1 =
    OK [("prediction", JInt 2)] ∧
  inference_log (app (predict_request Toy.sample_body) Toy.mismatched_process).2 =
    [[[6.3; 3.3; 6.0; 2.5]%float]].
Proof.
  assert (field_is Toy.sample_body "sepal_length" 6.3) as Ha by reflexivity.
  assert (field_is Toy.sample_body "sepal_width" 3.3) as Hb by reflexivity.
  assert (field_is Toy.sample_body "petal_length" 6.0) as Hc by reflexivity.
  assert (field_is Toy.sample_body "petal_width" 2.5) as Hd by reflexivity.
  destruct (predict_answers_prediction_or_server_error
              Toy.mismatched_process Toy.sample_body _ _ _ _ Ha Hb Hc Hd)
    as (Hraise & _ & _ & _ & _ & Hlog).
  destruct (predict_answers_prediction_or_server_error
              Toy.trained_process Toy.sample_body _ _ _ _ Ha Hb Hc Hd)
    as (_ & _ & _ & Hlabel & _ & _).
  split_and!; [exact Ha|exact Hb|exact Hc|exact Hd| | |exact Hlog].
  - apply (Hraise ValueError). reflexivity.
  - apply (Hlabel (np_int64 2) [] 2); reflexivity.
Defined.

Lemma other_requests_do_not_touch_the_process_witness :
  features_of (predict_request Toy.bad_body) = None ∧
  (app (predict_request Toy.bad_body) Toy.trained_process).2 = Toy.trained_process ∧
  (app (predict_request Toy.bad_body) Toy.trained_process).1 =
    (app (predict_request Toy.bad_body) Toy.mismatched_process).1.
Proof.
  assert (features_of (predict_request Toy.bad_body) = None) as Hnone by reflexivity.
  split; [exact Hnone|].
  exact (other_requests_do_not_touch_the_process
           (predict_request Toy.bad_body) Toy.trained_process Toy.mismatched_process
           Hnone).
Defined.

Lemma member_order_is_irrelevant_witness :
  NoDup Toy.sample_members.*1 ∧
  Toy.sample_members ≡ₚ Toy.sample_members_shuffled ∧
  app (predict_request (Some (JObj Toy.sample_members))) Toy.trained_process =
    app (predict_request (Some (JObj Toy.sample_members_shuffled))) Toy.trained_process.
Proof.
  assert (NoDup Toy.sample_members.*1) as Hnodup.
  { apply (bool_decide_unpack _). vm_compute. exact I. }
  assert (Toy.sample_members ≡ₚ Toy.sample_members_shuffled) as Hperm.
  { change Toy.sample_members_shuffled with (reverse Toy.sample_members).
    symmetry. apply reverse_Permutation. }
  split_and!; [exact Hnodup|exact Hperm|].
  exact (member_order_is_irrelevant Toy.trained_process _ _ Hnodup Hperm).
Defined.

Lemma service_loads_the_fitted_model_witness :
  pickle_round_trip ∧
  create_model Toy.fresh_world = (Ret tt, Toy.trained_world) ∧
  ∃ m : Model,
    startup Toy.trained_world =
      (Ret {| model := m; inference_log := [] |},
       add_calls [CallJoblibLoad "app/model.pkl"] Toy.trained_world).
Proof.
  split; [exact toy_pickle_round_trip|]. split; [exact toy_trainer_run|].
  destruct (service_loads_the_fitted_model Toy.fresh_world Toy.trained_world
              toy_pickle_round_trip toy_trainer_run)
    as (m & _ & _ & _ & Hstart).
  by exists m.
Defined.

Lemma trainer_needs_the_app_directory_witness :
  ("app" ∉ dirs Toy.bare_world) ∧
  ("app" ∉ dirs Toy.blocked_world) ∧
  create_model Toy.bare_world =
    (Raise (FileNotFoundError "app/model.pkl"),
     add_calls (calls_up_to_dump Toy.X_train Toy.y_train) Toy.bare_world) ∧
  create_model Toy.blocked_world =
    (Raise (NotADirectoryError "app/model.pkl"),
     add_calls (calls_up_to_dump Toy.X_train Toy.y_train) Toy.blocked_world).
Proof.
  assert ("app" ∉ dirs Toy.bare_world) as Hbare.
  { unfold Toy.bare_world. simpl. intros Hin%elem_of_singleton. discriminate. }
  assert ("app" ∉ dirs Toy.blocked_world) as Hblocked.
  { unfold Toy.blocked_world. simpl. intros Hin%elem_of_singleton. discriminate. }
  assert ("app/model.pkl" ∉ ({[ EmptyString ]} : gset string)) as Hnodir.
  { intros Hin%elem_of_singleton. discriminate. }
  split; [exact Hbare|]. split; [exact Hblocked|]. split.
  - destruct (trainer_needs_the_app_directory Toy.bare_world Hbare) as [_ Hfail].
    apply (Hfail Toy.X_train Toy.X_test Toy.y_train Toy.y_test Toy.fitted);
      [vm_compute; reflexivity|vm_compute; reflexivity|exact Hnodir].
  - destruct (trainer_needs_the_app_directory Toy.blocked_world Hblocked) as [_ Hfail].
    apply (Hfail Toy.X_train Toy.X_test Toy.y_train Toy.y_test Toy.fitted);
      [vm_compute; reflexivity|vm_compute; reflexivity|exact Hnodir].
Defined.

End MoreWitnesses.
